(** * Shallow embedding of [netdev/cisco/cisco_asa.py] (class [CiscoAsa])

    The Cisco ASA overlay of netdev: the command mapper
    ([_get_default_command]), the prompt parser ([_set_base_prompt]), the
    mode check ([_check_multiple_mode]), the command wrapper
    ([send_command]) and the connect sequence ([connect]).

    Python strings are [String.string]; Python exceptions are the
    constructors of [error]; the [async] methods run in a state-and-error
    monad over the session object, whose base-class primitives
    ([_establish_connection], [_find_prompt], [_enable], [_disable_paging]
    and the base [send_command]) are abstract operations of a
    [collaborator] record.  Every call of a primitive is recorded in the
    session's [trace], so that the order of the calls can be stated. *)

From Stdlib Require Import Bool Arith List Lia.
From Stdlib Require Import Strings.String Strings.Ascii.
Import ListNotations.
Open Scope list_scope.
Open Scope string_scope.

(** ** Python exceptions *)

Inductive error : Type :=
| TransportError (msg : string)  (* raised by a base-class primitive *)
| ValueError                     (* tuple unpacking of the wrong length *)
| KeyError (key : string)        (* dict lookup of a missing key *)
| IndexError.                    (* str.format with too few arguments *)

Inductive result (A : Type) : Type :=
| Ok (a : A)
| Err (e : error).
Arguments Ok {A} a.
Arguments Err {A} e.

(** ** Python string primitives *)

(** [p] is a prefix of [s]. *)
Fixpoint prefixb (p s : string) : bool :=
  match p, s with
  | EmptyString, _ => true
  | String a p', String b s' => Ascii.eqb a b && prefixb p' s'
  | String _ _, EmptyString => false
  end.

(** Python [needle in hay] on strings. *)
Fixpoint py_contains (needle hay : string) : bool :=
  prefixb needle hay ||
  match hay with
  | EmptyString => false
  | String _ hay' => py_contains needle hay'
  end.

(** Python [s.split(sep)] for a one-character separator. *)
Fixpoint py_split (sep : ascii) (s : string) : list string :=
  match s with
  | EmptyString => [EmptyString]
  | String c s' =>
      let parts := py_split sep s' in
      if Ascii.eqb c sep then EmptyString :: parts
      else match parts with
           | p :: ps => String c p :: ps
           | [] => [String c EmptyString]
           end
  end.

(** Python [sep.join(parts)] for a one-character separator. *)
Fixpoint py_join (sep : ascii) (parts : list string) : string :=
  match parts with
  | [] => EmptyString
  | [p] => p
  | p :: ps => p ++ String sep (py_join sep ps)
  end.

(** Python [s[:-1]] (the empty string stays empty). *)
Definition drop_last (s : string) : string :=
  substring 0 (length s - 1) s.

(** Python [s[:n]]. *)
Definition take_prefix (n : nat) (s : string) : string :=
  substring 0 n s.

(** The characters [re.escape] prefixes with a backslash (Python 3.7 and
    later: [b'()[]{}?*+-|^$\\.&~# \t\n\r\v\f']). *)
Fixpoint mem_char (c : ascii) (s : string) : bool :=
  match s with
  | EmptyString => false
  | String d s' => Ascii.eqb c d || mem_char c s'
  end.

Definition re_special (c : ascii) : bool :=
  mem_char c "()[]{}?*+-|^$\.&~# "
  || existsb (Nat.eqb (nat_of_ascii c)) [9; 10; 11; 12; 13].

(** Python [re.escape]. *)
Fixpoint re_escape (s : string) : string :=
  match s with
  | EmptyString => EmptyString
  | String c s' =>
      if re_special c then String "\"%char (String c (re_escape s'))
      else String c (re_escape s')
  end.

(** Python [tmpl.format( *args)] for templates whose only fields are
    [{}]; a missing argument raises [IndexError]. *)
Fixpoint py_format (tmpl : string) (args : list string) : result string :=
  match tmpl with
  | EmptyString => Ok EmptyString
  | String "{"%char (String "}"%char rest) =>
      match args with
      | a :: args' =>
          match py_format rest args' with
          | Ok r => Ok (a ++ r)
          | Err e => Err e
          end
      | [] => Err IndexError
      end
  | String c rest =>
      match py_format rest args with
      | Ok r => Ok (String c r)
      | Err e => Err e
      end
  end.

(** ** [_get_default_command]: the command mapper *)

Definition command_mapper : list (string * string) :=
  [ ("delimeter1", ">");
    ("delimeter2", "#");
    ("pattern", "{}.*?(\(.*?\))?[{}|{}]");
    ("disable_paging", "terminal pager 0");
    ("priv_enter", "enable");
    ("priv_exit", "disable");
    ("config_enter", "conf t");
    ("config_exit", "end");
    ("config_check", ")#");
    ("check_config_mode", ")#") ].

(** [command_mapper[command]]. *)
Fixpoint dict_lookup (d : list (string * string)) (k : string) : result string :=
  match d with
  | [] => Err (KeyError k)
  | (k', v) :: d' => if String.eqb k k' then Ok v else dict_lookup d' k
  end.

Definition get_default_command (command : string) : result string :=
  dict_lookup command_mapper command.

(** ** [_set_base_prompt]: the parsing done on the found prompt *)

(** The format string of line 80. *)
Definition base_pattern_template : string :=
  "{}.*(\/\w+)?(\(.*?\))?[{}|{}]".

(** Lines 70-81 of [_set_base_prompt], applied to the string returned by
    [_find_prompt]: the new [(base_prompt, current_context, base_pattern)]. *)
Definition parse_prompt (prompt : string)
  : result (string * string * string) :=
  let context := "system" in
  let cut :=
    if py_contains "/" prompt then
      match py_split "/"%char (drop_last prompt) with
      | [p; c] => Ok (p, c)
      | _ => Err ValueError
      end
    else Ok (drop_last prompt, context) in
  match cut with
  | Err e => Err e
  | Ok (base_prompt, current_context) =>
      match get_default_command "delimeter1" with
      | Err e => Err e
      | Ok delimeter1 =>
          match get_default_command "delimeter2" with
          | Err e => Err e
          | Ok delimeter2 =>
              match py_format base_pattern_template
                      [re_escape (take_prefix 12 base_prompt);
                       re_escape delimeter1; re_escape delimeter2] with
              | Err e => Err e
              | Ok base_pattern => Ok (base_prompt, current_context, base_pattern)
              end
          end
      end
  end.

(** ** Reading the trailing character class of a [base_pattern] *)

(** The suffix of a pattern that starts at its last ['[']. *)
Fixpoint trailing_class (s : string) : string :=
  match s with
  | EmptyString => EmptyString
  | String c s' =>
      if mem_char "["%char s' then trailing_class s'
      else if Ascii.eqb c "["%char then s else EmptyString
  end.

(** The characters a regular-expression class body matches, for bodies
    without ranges: a backslash escapes the next character, [']'] ends
    the class. *)
Fixpoint class_body (s : string) : list ascii :=
  match s with
  | EmptyString => []
  | String "]"%char _ => []
  | String "\"%char (String c s') => c :: class_body s'
  | String c s' => c :: class_body s'
  end.

Definition class_members (cls : string) : list ascii :=
  match cls with
  | String "["%char body => class_body body
  | _ => []
  end.

(** ** The session object *)

(** Calls of the base-class primitives, in the order they are made. *)
Inductive event : Type :=
| EvEstablishConnection
| EvFindPrompt
| EvEnable
| EvDisablePaging
| EvSendCommandBase (command_string : string) (strip_prompt strip_command : bool).

(** The attributes of a [CiscoAsa] object that the overlay reads or
    writes; [world] is the state owned by the base class and the device
    (the SSH channel and what the device will answer). *)
Record session (World : Type) : Type := mk_session {
  world : World;
  base_prompt : string;
  base_pattern : string;
  current_context : string;
  multiple_mode : bool;
  trace : list event
}.
Arguments mk_session {World} _ _ _ _ _ _.
Arguments world {World} _.
Arguments base_prompt {World} _.
Arguments base_pattern {World} _.
Arguments current_context {World} _.
Arguments multiple_mode {World} _.
Arguments trace {World} _.

(** The primitives inherited from [CiscoLikeDevice]: each reads the
    session and returns its result and the new base-class state. *)
Record collaborator (World : Type) : Type := {
  establish_connection : session World -> result unit * World;
  find_prompt : session World -> result string * World;
  enable : session World -> result unit * World;
  disable_paging : session World -> result unit * World;
  send_command_base :
    string -> bool -> bool -> session World -> result string * World
}.
Arguments establish_connection {World} _ _.
Arguments find_prompt {World} _ _.
Arguments enable {World} _ _.
Arguments disable_paging {World} _ _.
Arguments send_command_base {World} _ _ _ _ _.

(** [__init__] (lines 17-18) on a fresh base-class state. *)
Definition init_session {World : Type} (w : World) : session World :=
  mk_session w "" "" "system" false [].

(** ** The [async] methods as a state-and-error monad *)

Definition M (World A : Type) : Type := session World -> result A * session World.

Definition ret {World A : Type} (a : A) : M World A := fun s => (Ok a, s).

Definition raise {World A : Type} (e : error) : M World A := fun s => (Err e, s).

Definition bind {World A B : Type} (m : M World A) (k : A -> M World B) : M World B :=
  fun s => match m s with
           | (Ok a, s') => k a s'
           | (Err e, s') => (Err e, s')
           end.

Notation "x <- m ;; k" := (bind m (fun x => k))
  (at level 61, m at next level, right associativity).

Definition log {World : Type} (ev : event) (s : session World) : session World :=
  mk_session (world s) (base_prompt s) (base_pattern s) (current_context s)
    (multiple_mode s) (trace s ++ [ev]).

Definition with_world {World : Type} (w : World) (s : session World) : session World :=
  mk_session w (base_prompt s) (base_pattern s) (current_context s)
    (multiple_mode s) (trace s).

(** [await self._primitive(...)]: the call is recorded, then run. *)
Definition call {World A : Type} (ev : event)
  (op : session World -> result A * World) : M World A :=
  fun s => let s1 := log ev s in
           let (r, w) := op s1 in (r, with_world w s1).

Definition set_identity {World : Type} (bp ctx pat : string)
  : M World unit :=
  fun s => (Ok tt, mk_session (world s) bp pat ctx (multiple_mode s) (trace s)).

Definition set_multiple_mode {World : Type} (b : bool) : M World unit :=
  fun s => (Ok tt, mk_session (world s) (base_prompt s) (base_pattern s)
                     (current_context s) b (trace s)).

Section CiscoAsa.
Context {World : Type} (C : collaborator World).

(** [_set_base_prompt] (lines 59-85).  The assignments of lines 76-77
    and 80 are made together once the pattern is built: the two catalog
    lookups in between cannot fail ([get_default_command] has both keys). *)
Definition set_base_prompt : M World string :=
  prompt <- call EvFindPrompt (find_prompt C) ;;
  match parse_prompt prompt with
  | Err e => raise e
  | Ok (bp, ctx, pat) =>
      _ <- set_identity bp ctx pat ;;
      ret bp
  end.

(** [send_command] (lines 48-57). *)
Definition send_command (command_string : string)
  (strip_prompt strip_command : bool) : M World string :=
  output <- call (EvSendCommandBase command_string strip_prompt strip_command)
              (send_command_base C command_string strip_prompt strip_command) ;;
  if py_contains "changet" command_string then
    _ <- set_base_prompt ;;
    ret output
  else ret output.

(** [_check_multiple_mode] (lines 87-96); [self.send_command] is the
    overriding [send_command] above, with its default flags. *)
Definition check_multiple_mode : M World unit :=
  out <- send_command "show mode" true true ;;
  if py_contains "multiple" out then set_multiple_mode true
  else ret tt.

(** [connect] (lines 30-46). *)
Definition connect : M World unit :=
  _ <- call EvEstablishConnection (establish_connection C) ;;
  _ <- set_base_prompt ;;
  _ <- call EvEnable (enable C) ;;
  _ <- call EvDisablePaging (disable_paging C) ;;
  check_multiple_mode.

End CiscoAsa.

(** ** The connect contract, read from the spec *)

(** Spec 4.4: the steps of [connect] run strictly in order; the first
    step that fails stops the sequence with its own error, and no step is
    run again. *)
Fixpoint run_in_order {World : Type} (steps : list (M World unit)) : M World unit :=
  match steps with
  | [] => ret tt
  | step :: rest =>
      fun s => match step s with
               | (Ok _, s1) => run_in_order rest s1
               | (Err e, s1) => (Err e, s1)
               end
  end.

(** The five steps of spec 4.4: (a) transport establishment, (b) prompt
    discovery and parsing, (c) privileged mode, (d) paging, (e) mode check. *)
Definition connect_steps {World : Type} (C : collaborator World) : list (M World unit) :=
  [ call EvEstablishConnection (establish_connection C);
    (_ <- set_base_prompt C ;; ret tt);
    call EvEnable (enable C);
    call EvDisablePaging (disable_paging C);
    check_multiple_mode C ].

(** The primitive calls of a complete [connect]. *)
Definition connect_events : list event :=
  [ EvEstablishConnection; EvFindPrompt; EvEnable; EvDisablePaging;
    EvSendCommandBase "show mode" true true ].

(** ** A concrete device, used to run the methods *)

(** An ASA in multiple-context mode, in context [admin]; the base-class
    state counts the primitive calls. *)
Definition demo_asa : collaborator nat := {|
  establish_connection := fun s => (Ok tt, S (world s));
  find_prompt := fun s => (Ok "ciscoasa/admin#", S (world s));
  enable := fun s => (Ok tt, S (world s));
  disable_paging := fun s => (Ok tt, S (world s));
  send_command_base := fun cmd _ _ s =>
    (Ok (if String.eqb cmd "show mode" then "Security context mode: multiple"
         else ""), S (world s))
|}.

(** The same device showing the prompt [raw]. *)
Definition demo_asa_prompt (raw : string) : collaborator nat := {|
  establish_connection := establish_connection demo_asa;
  find_prompt := fun s => (Ok raw, S (world s));
  enable := enable demo_asa;
  disable_paging := disable_paging demo_asa;
  send_command_base := send_command_base demo_asa
|}.

(** The same device answering every command with [answer]. *)
Definition demo_asa_answer (answer : string) : collaborator nat := {|
  establish_connection := establish_connection demo_asa;
  find_prompt := find_prompt demo_asa;
  enable := enable demo_asa;
  disable_paging := disable_paging demo_asa;
  send_command_base := fun _ _ _ s => (Ok answer, S (world s))
|}.

(** The same device whose command channel fails with [msg]. *)
Definition demo_asa_down (msg : string) : collaborator nat := {|
  establish_connection := establish_connection demo_asa;
  find_prompt := find_prompt demo_asa;
  enable := enable demo_asa;
  disable_paging := disable_paging demo_asa;
  send_command_base := fun _ _ _ s => (Err (TransportError msg), S (world s))
|}.

(** ** Lemmas on the string primitives *)

Lemma prefixb_app (p t : string) : prefixb p (p ++ t) = true.
Proof.
  induction p as [|a p IH]; simpl; [reflexivity|].
  rewrite Ascii.eqb_refl, IH. reflexivity.
Qed.

Lemma py_contains_app_l (p a b : string) :
  py_contains p b = true -> py_contains p (a ++ b) = true.
Proof.
  intro H; induction a as [|x a IH]; simpl; [exact H|].
  rewrite IH, orb_true_r. reflexivity.
Qed.

Lemma py_contains_middle (p a b : string) : py_contains p (a ++ p ++ b) = true.
Proof.
  apply py_contains_app_l. destruct p; simpl; [destruct b; reflexivity|].
  rewrite Ascii.eqb_refl, prefixb_app. reflexivity.
Qed.

Lemma py_contains_char (c : ascii) (s : string) :
  py_contains (String c EmptyString) s = mem_char c s.
Proof.
  induction s as [|d s IH]; simpl; [reflexivity|].
  rewrite IH, andb_true_r. reflexivity.
Qed.

Lemma py_split_no_sep (sep : ascii) (s : string) :
  mem_char sep s = false -> py_split sep s = [s].
Proof.
  induction s as [|c s IH]; simpl; [reflexivity|].
  intro H; apply orb_false_elim in H as [H1 H2].
  rewrite IH by exact H2. rewrite (Ascii.eqb_sym c sep), H1. reflexivity.
Qed.

Lemma py_split_one_sep (sep : ascii) (a b : string) :
  mem_char sep a = false -> mem_char sep b = false ->
  py_split sep (a ++ String sep b) = [a; b].
Proof.
  intros Ha Hb; induction a as [|c a IH]; simpl.
  - rewrite Ascii.eqb_refl, py_split_no_sep by exact Hb. reflexivity.
  - apply orb_false_elim in Ha as [H1 H2].
    rewrite IH by exact H2. rewrite (Ascii.eqb_sym c sep), H1. reflexivity.
Qed.

Lemma substring_app_l (s t : string) : substring 0 (length s) (s ++ t) = s.
Proof.
  induction s as [|c s IH]; simpl; [destruct t; reflexivity|].
  rewrite IH. reflexivity.
Qed.

Lemma length_app (s t : string) : length (s ++ t) = length s + length t.
Proof. induction s as [|c s IH]; simpl; [reflexivity|]. rewrite IH. reflexivity. Qed.

Lemma str_app_assoc (a b c : string) : (a ++ b) ++ c = a ++ b ++ c.
Proof. induction a as [|x a IH]; simpl; [reflexivity|]. rewrite IH. reflexivity. Qed.

Lemma drop_last_snoc (s : string) (c : ascii) :
  drop_last (s ++ String c EmptyString) = s.
Proof.
  unfold drop_last. rewrite length_app. simpl.
  replace (length s + 1 - 1) with (length s) by lia.
  apply substring_app_l.
Qed.

(** The pattern [_set_base_prompt] builds from a base prompt. *)
Lemma parse_prompt_pattern (raw bp ctx pat : string) :
  parse_prompt raw = Ok (bp, ctx, pat) ->
  pat = re_escape (take_prefix 12 bp) ++ ".*(\/\w+)?(\(.*?\))?[>|\#]".
Proof.
  unfold parse_prompt.
  destruct (py_contains "/" raw).
  - destruct (py_split "/"%char (drop_last raw)) as [|p [|c [|x l]]];
      simpl; try discriminate.
    intro H; injection H as <- <- <-. reflexivity.
  - simpl. intro H; injection H as <- <- <-. reflexivity.
Qed.

(** The result of [parse_prompt] by cases: it fails only with
    [ValueError], exactly when the prompt has a ['/'] and the text without
    its last character does not split into two parts at ['/']. *)
Lemma parse_prompt_cases (raw : string) :
  match parse_prompt raw with
  | Ok _ => ~ (py_contains "/" raw = true
               /\ List.length (py_split "/"%char (drop_last raw)) <> 2)
  | Err e => e = ValueError /\ py_contains "/" raw = true
             /\ List.length (py_split "/"%char (drop_last raw)) <> 2
  end.
Proof.
  unfold parse_prompt.
  destruct (py_contains "/" raw).
  - destruct (py_split "/"%char (drop_last raw)) as [|p [|c [|x l]]];
      simpl; intuition (try discriminate; try lia).
  - simpl. intuition discriminate.
Qed.

Lemma mem_char_app (c : ascii) (a b : string) :
  mem_char c (a ++ b) = mem_char c a || mem_char c b.
Proof.
  induction a as [|d a IH]; simpl; [reflexivity|].
  rewrite IH, orb_assoc. reflexivity.
Qed.

Lemma trailing_class_app (a b : string) :
  mem_char "["%char b = true -> trailing_class (a ++ b) = trailing_class b.
Proof.
  intro H; induction a as [|c a IH]; simpl; [reflexivity|].
  rewrite mem_char_app, H, orb_true_r. exact IH.
Qed.

(** ** C1: splitting a context-qualified prompt *)

(** C1 (as amended). When the raw prompt without its last character holds
    exactly one ['/'], i.e. the raw prompt is [NAME/CTX] followed by one
    character with no ['/'] in [NAME] nor in [CTX], the parser yields
    base prompt [NAME] and current context [CTX]. *)
Theorem parse_prompt_one_slash (name ctx : string) (c : ascii) :
  py_contains "/" name = false -> py_contains "/" ctx = false ->
  exists pat,
    parse_prompt (name ++ "/" ++ ctx ++ String c EmptyString) = Ok (name, ctx, pat).
Proof.
  intros Hn Hc.
  rewrite py_contains_char in Hn, Hc.
  unfold parse_prompt.
  replace (name ++ "/" ++ ctx ++ String c EmptyString)
    with ((name ++ String "/"%char ctx) ++ String c EmptyString)
    by (rewrite str_app_assoc; reflexivity).
  rewrite drop_last_snoc, py_split_one_sep by assumption.
  rewrite str_app_assoc.
  replace (py_contains "/" (name ++ String "/"%char ctx ++ String c EmptyString))
    with true
    by (symmetry; apply (py_contains_middle "/" name)).
  eexists; reflexivity.
Qed.

Lemma parse_prompt_one_slash_witness :
  (py_contains "/" "ciscoasa" = false /\ py_contains "/" "admin" = false)
  /\ exists pat, parse_prompt ("ciscoasa" ++ "/" ++ "admin" ++ String "#"%char EmptyString)
                 = Ok ("ciscoasa", "admin", pat).
Proof.
  split; [split; reflexivity|].
  apply (parse_prompt_one_slash "ciscoasa" "admin" "#"%char); reflexivity.
Defined.

(** C1 fails as stated: ["a/b/c#"] contains ['/'], yet the parser does not
    split it at the last ['/'] into base prompt ["a/b"] and context ["c"];
    the two-name unpacking of [split('/')] raises [ValueError]. *)
Lemma parse_prompt_two_slashes :
  py_contains "/" "a/b/c#" = true /\ parse_prompt "a/b/c#" = Err ValueError.
Proof. split; reflexivity. Qed.

(** ** C2: the parser's failures *)

(** C2 (as amended). The parser checks no delimiter: it strips the last
    character whatever it is.  Its only failure is [ValueError], raised
    exactly when the raw prompt contains ['/'] and the text without its
    last character does not split into exactly two parts at ['/'];
    every other raw prompt is parsed successfully. *)
Theorem parse_prompt_failure (raw : string) :
  (forall e, parse_prompt raw = Err e -> e = ValueError) /\
  ((exists r, parse_prompt raw = Ok r) <->
   ~ (py_contains "/" raw = true
      /\ List.length (py_split "/"%char (drop_last raw)) <> 2)).
Proof.
  pose proof (parse_prompt_cases raw) as H.
  destruct (parse_prompt raw) as [r|e].
  - split; [discriminate|]. split; [intros _; exact H|intros _; eauto].
  - destruct H as [He H]. split.
    + intros e' E; injection E as <-; exact He.
    + split; [intros [r Hr]; discriminate|intro Hn; contradiction].
Qed.

(** C2 fails as stated: ["ciscoasa"] does not end with ['>'] or ['#'],
    yet it is parsed without error (base prompt ["ciscoas"]). *)
Lemma parse_prompt_no_delimiter :
  String.get 7 "ciscoasa" = Some "a"%char /\
  parse_prompt "ciscoasa"
  = Ok ("ciscoas", "system", "ciscoas.*(\/\w+)?(\(.*?\))?[>|\#]").
Proof. split; reflexivity. Qed.

(** ** C7: prompts without a context *)

(** C7. A raw prompt [NAME#] or [NAME>] with no ['/'] parses to base
    prompt [NAME] and current context ["system"]. *)
Theorem parse_prompt_no_slash (name : string) (c : ascii) :
  py_contains "/" name = false -> (c = ">"%char \/ c = "#"%char) ->
  exists pat,
    parse_prompt (name ++ String c EmptyString) = Ok (name, "system", pat).
Proof.
  intros Hn Hd.
  assert (Hs : py_contains "/" (name ++ String c EmptyString) = false).
  { rewrite py_contains_char in *. rewrite mem_char_app, Hn.
    destruct Hd as [-> | ->]; reflexivity. }
  unfold parse_prompt. rewrite Hs, drop_last_snoc.
  eexists; reflexivity.
Qed.

Lemma parse_prompt_no_slash_witness :
  (py_contains "/" "ciscoasa" = false /\ ("#"%char = ">"%char \/ "#"%char = "#"%char))
  /\ exists pat, parse_prompt ("ciscoasa" ++ String "#"%char EmptyString)
                 = Ok ("ciscoasa", "system", pat).
Proof.
  split; [split; [reflexivity|right; reflexivity]|].
  apply (parse_prompt_no_slash "ciscoasa" "#"%char); [reflexivity|right; reflexivity].
Defined.

(** ** C8: the command mapper *)

(** C8. [_get_default_command] looks its argument up in the fixed
    [command_mapper]: ['delimeter1'] gives ['>'], ['delimeter2'] gives
    ['#'], and any other name than the mapper's keys raises the dict's
    [KeyError] (the spec's [UnknownCommandKind]). *)
Theorem get_default_command_spec :
  get_default_command "delimeter1" = Ok ">" /\
  get_default_command "delimeter2" = Ok "#" /\
  (forall name, ~ In name (map fst command_mapper) ->
                get_default_command name = Err (KeyError name)).
Proof.
  split; [reflexivity|]. split; [reflexivity|].
  intros name Hn. unfold get_default_command. simpl in *.
  repeat match goal with
         | |- context [String.eqb name ?k] =>
             destruct (String.eqb_spec name k) as [-> | _];
             [exfalso; apply Hn; tauto|]
         end.
  reflexivity.
Qed.

Lemma get_default_command_spec_witness :
  ~ In "delimiter" (map fst command_mapper) /\
  get_default_command "delimiter" = Err (KeyError "delimiter").
Proof.
  assert (H : ~ In "delimiter" (map fst command_mapper))
    by (simpl; intuition discriminate).
  split; [exact H|].
  apply (proj2 (proj2 get_default_command_spec)); exact H.
Defined.

(** ** The methods, one step unfolded *)

Lemma set_base_prompt_eq {World : Type} (C : collaborator World) (s : session World) :
  set_base_prompt C s =
  match find_prompt C (log EvFindPrompt s) with
  | (Ok raw, w) =>
      match parse_prompt raw with
      | Ok (bp, ctx, pat) =>
          (Ok bp, mk_session w bp pat ctx (multiple_mode s) ((trace s ++ [EvFindPrompt])%list))
      | Err e => (Err e, with_world w (log EvFindPrompt s))
      end
  | (Err e, w) => (Err e, with_world w (log EvFindPrompt s))
  end.
Proof.
  unfold set_base_prompt, bind, call.
  destruct (find_prompt C (log EvFindPrompt s)) as [[raw|e] w]; [|reflexivity].
  destruct (parse_prompt raw) as [[[bp ctx] pat]|e]; reflexivity.
Qed.

(** [_set_base_prompt] makes one primitive call, [_find_prompt]. *)
Lemma set_base_prompt_trace {World : Type} (C : collaborator World) (s : session World) :
  trace (snd (set_base_prompt C s)) = (trace s ++ [EvFindPrompt])%list.
Proof.
  rewrite set_base_prompt_eq.
  destruct (find_prompt C (log EvFindPrompt s)) as [[raw|e] w]; [|reflexivity].
  destruct (parse_prompt raw) as [[[bp ctx] pat]|e]; reflexivity.
Qed.

(** A successful [_set_base_prompt] stores a successful parse of the
    prompt [_find_prompt] returned. *)
Lemma set_base_prompt_ok {World : Type} (C : collaborator World)
  (s s' : session World) (bp : string) :
  set_base_prompt C s = (Ok bp, s') ->
  exists raw w, find_prompt C (log EvFindPrompt s) = (Ok raw, w) /\
    parse_prompt raw = Ok (base_prompt s', current_context s', base_pattern s') /\
    base_prompt s' = bp /\ world s' = w.
Proof.
  rewrite set_base_prompt_eq.
  destruct (find_prompt C (log EvFindPrompt s)) as [[raw|e] w]; [|discriminate].
  destruct (parse_prompt raw) as [[[bp' ctx] pat]|e] eqn:E; [|discriminate].
  intro H; injection H as <- <-. exists raw, w. simpl. auto.
Qed.

Lemma send_command_eq {World : Type} (C : collaborator World)
  (cmd : string) (sp sc : bool) (s : session World) :
  send_command C cmd sp sc s =
  let s1 := log (EvSendCommandBase cmd sp sc) s in
  match send_command_base C cmd sp sc s1 with
  | (Ok o, w) =>
      if py_contains "changet" cmd then
        match set_base_prompt C (with_world w s1) with
        | (Ok _, s2) => (Ok o, s2)
        | (Err e, s2) => (Err e, s2)
        end
      else (Ok o, with_world w s1)
  | (Err e, w) => (Err e, with_world w s1)
  end.
Proof.
  unfold send_command at 1, bind at 1, call at 1; cbv zeta.
  destruct (send_command_base C cmd sp sc (log (EvSendCommandBase cmd sp sc) s))
    as [[o|e] w]; [|reflexivity].
  destruct (py_contains "changet" cmd); [|reflexivity].
  unfold bind at 1.
  destruct (set_base_prompt C _) as [[bp|e] s2]; reflexivity.
Qed.

(** ** C3: [send_command] *)

(** C3. Once the base-class [send_command] has returned the output [o]
    of [command_string], the overlay returns that same [o]; it runs
    [_set_base_prompt] (one more [_find_prompt] call plus parsing) exactly
    when [command_string] contains ["changet"], whatever else the command
    says, and its only other outcome is that refresh's error. *)
Theorem send_command_spec {World : Type} (C : collaborator World)
  (cmd : string) (sp sc : bool) (s : session World) (o : string) (w : World) :
  send_command_base C cmd sp sc (log (EvSendCommandBase cmd sp sc) s) = (Ok o, w) ->
  let s1 := with_world w (log (EvSendCommandBase cmd sp sc) s) in
  send_command C cmd sp sc s =
    (if py_contains "changet" cmd then
       match set_base_prompt C s1 with
       | (Ok _, s2) => (Ok o, s2)
       | (Err e, s2) => (Err e, s2)
       end
     else (Ok o, s1)) /\
  (forall v, fst (send_command C cmd sp sc s) = Ok v -> v = o) /\
  trace (snd (send_command C cmd sp sc s)) =
    (trace s ++ EvSendCommandBase cmd sp sc
       :: (if py_contains "changet" cmd then [EvFindPrompt] else []))%list.
Proof.
  intros Hb s1.
  assert (Heq : send_command C cmd sp sc s =
    (if py_contains "changet" cmd then
       match set_base_prompt C s1 with
       | (Ok _, s2) => (Ok o, s2)
       | (Err e, s2) => (Err e, s2)
       end
     else (Ok o, s1))).
  { rewrite send_command_eq. cbv zeta. rewrite Hb. reflexivity. }
  split; [exact Heq|]. rewrite Heq.
  destruct (py_contains "changet" cmd).
  - pose proof (set_base_prompt_trace C s1) as Ht.
    destruct (set_base_prompt C s1) as [[bp|e] s2]; simpl in *;
      (split; [intros v Hv; try injection Hv as <-; try discriminate; reflexivity|]);
      rewrite Ht; simpl; rewrite <- app_assoc; reflexivity.
  - simpl. split; [intros v Hv; injection Hv as <-; reflexivity|]. reflexivity.
Qed.

Lemma send_command_spec_witness :
  let s0 := init_session 0 in
  let cmd := "changeto context admin" in
  send_command_base demo_asa cmd true true (log (EvSendCommandBase cmd true true) s0)
    = (Ok "", 1) /\
  trace (snd (send_command demo_asa cmd true true s0)) =
    [EvSendCommandBase cmd true true; EvFindPrompt].
Proof.
  cbv zeta. split; [reflexivity|].
  destruct (send_command_spec demo_asa "changeto context admin" true true
              (init_session 0) "" 1 eq_refl) as [_ [_ Ht]].
  rewrite Ht. reflexivity.
Defined.

(** ** C9: the refresh does not look at [multiple_mode] *)

(** C9. In single-context mode ([multiple_mode = false]) too, a command
    containing ["changet"] makes [send_command] call [_find_prompt] again
    after the command, and a successful refresh stores the new prompt. *)
Theorem send_command_refresh_single_mode {World : Type} (C : collaborator World)
  (cmd : string) (sp sc : bool) (s : session World) (o : string) (w : World) :
  multiple_mode s = false ->
  py_contains "changet" cmd = true ->
  send_command_base C cmd sp sc (log (EvSendCommandBase cmd sp sc) s) = (Ok o, w) ->
  trace (snd (send_command C cmd sp sc s)) =
    (trace s ++ [EvSendCommandBase cmd sp sc; EvFindPrompt])%list /\
  (forall bp s2,
     set_base_prompt C (with_world w (log (EvSendCommandBase cmd sp sc) s)) = (Ok bp, s2) ->
     send_command C cmd sp sc s = (Ok o, s2)).
Proof.
  intros _ Hm Hb.
  rewrite send_command_eq; cbv zeta. rewrite Hb, Hm.
  pose proof (set_base_prompt_trace C
                (with_world w (log (EvSendCommandBase cmd sp sc) s))) as Ht.
  split.
  - destruct (set_base_prompt C _) as [[bp|e] s2]; simpl in *; rewrite Ht;
      simpl; rewrite <- app_assoc; reflexivity.
  - intros bp s2 E. rewrite E. reflexivity.
Qed.

Lemma send_command_refresh_single_mode_witness :
  let s0 := init_session 0 in
  let cmd := "changeto context admin" in
  (multiple_mode s0 = false /\ py_contains "changet" cmd = true /\
   send_command_base demo_asa cmd true true (log (EvSendCommandBase cmd true true) s0)
     = (Ok "", 1)) /\
  trace (snd (send_command demo_asa cmd true true s0)) =
    [EvSendCommandBase cmd true true; EvFindPrompt].
Proof.
  cbv zeta. split; [split; [reflexivity|split; reflexivity]|].
  destruct (send_command_refresh_single_mode demo_asa "changeto context admin"
              true true (init_session 0) "" 1 eq_refl eq_refl eq_refl) as [Ht _].
  exact Ht.
Defined.

(** ** C4: [_check_multiple_mode] *)

(** C4. On a session with [multiple_mode = false], once the device has
    answered [show mode] with [out], [_check_multiple_mode] succeeds and
    leaves [multiple_mode] equal to ["multiple" in out]: an answer with
    ["multiple"] anywhere gives [true], the answer ["single"] gives [false]. *)
Theorem check_multiple_mode_spec {World : Type} (C : collaborator World)
  (s : session World) (out : string) (w : World) :
  multiple_mode s = false ->
  send_command_base C "show mode" true true
    (log (EvSendCommandBase "show mode" true true) s) = (Ok out, w) ->
  fst (check_multiple_mode C s) = Ok tt /\
  multiple_mode (snd (check_multiple_mode C s)) = py_contains "multiple" out /\
  (forall a b, py_contains "multiple" (a ++ "multiple" ++ b) = true) /\
  py_contains "multiple" "single" = false.
Proof.
  intros Hm Hb.
  unfold check_multiple_mode at 1 2, bind at 1 2.
  rewrite !send_command_eq; cbv zeta. rewrite Hb. simpl.
  split; [destruct (py_contains "multiple" out); reflexivity|].
  split; [destruct (py_contains "multiple" out); [reflexivity|exact Hm]|].
  split; [intros a b; exact (py_contains_middle "multiple" a b)|reflexivity].
Qed.

Lemma check_multiple_mode_spec_witness :
  let s0 := init_session 0 in
  (multiple_mode s0 = false /\
   send_command_base demo_asa "show mode" true true
     (log (EvSendCommandBase "show mode" true true) s0)
     = (Ok "Security context mode: multiple", 1)) /\
  multiple_mode (snd (check_multiple_mode demo_asa s0)) = true.
Proof.
  cbv zeta. split; [split; reflexivity|].
  destruct (check_multiple_mode_spec demo_asa (init_session 0)
              "Security context mode: multiple" 1 eq_refl eq_refl) as [_ [Hm _]].
  rewrite Hm. reflexivity.
Defined.

(** ** C5 and C10: the stored [base_pattern] *)

Lemma set_base_prompt_pattern {World : Type} (C : collaborator World)
  (s s' : session World) (bp : string) :
  set_base_prompt C s = (Ok bp, s') ->
  base_pattern s' =
    re_escape (take_prefix 12 (base_prompt s')) ++ ".*(\/\w+)?(\(.*?\))?[>|\#]".
Proof.
  intro H. apply set_base_prompt_ok in H as [raw [w [_ [Hp _]]]].
  exact (parse_prompt_pattern _ _ _ _ Hp).
Qed.

(** C5. After a successful [_set_base_prompt], [base_pattern] is built from
    [base_prompt] and the two catalog delimiters: the escaped first twelve
    characters of [base_prompt], [.*], the optional [/context] group, the
    optional parenthetical group and a closing character class made of the
    escaped delimiters, which matches both ['>'] and ['#']. *)
Theorem set_base_prompt_pattern_shape {World : Type} (C : collaborator World)
  (s s' : session World) (bp : string) :
  set_base_prompt C s = (Ok bp, s') ->
  exists delimeter1 delimeter2 cls,
    get_default_command "delimeter1" = Ok delimeter1 /\
    get_default_command "delimeter2" = Ok delimeter2 /\
    cls = "[" ++ re_escape delimeter1 ++ "|" ++ re_escape delimeter2 ++ "]" /\
    base_pattern s' = re_escape (take_prefix 12 (base_prompt s'))
                      ++ ".*" ++ "(\/\w+)?" ++ "(\(.*?\))?" ++ cls /\
    trailing_class (base_pattern s') = cls /\
    In ">"%char (class_members cls) /\ In "#"%char (class_members cls).
Proof.
  intro H. apply set_base_prompt_pattern in H.
  exists ">", "#", "[>|\#]".
  do 3 (split; [reflexivity|]).
  split; [exact H|].
  split; [rewrite H; apply trailing_class_app; reflexivity|].
  simpl; auto.
Qed.

Lemma set_base_prompt_pattern_shape_witness :
  exists s', set_base_prompt demo_asa (init_session 0) = (Ok "ciscoasa", s') /\
    base_pattern s' = "ciscoasa.*(\/\w+)?(\(.*?\))?[>|\#]".
Proof.
  eexists; split; [reflexivity|].
  destruct (set_base_prompt_pattern_shape demo_asa (init_session 0) _ "ciscoasa" eq_refl)
    as [d1 [d2 [cls [Hd1 [Hd2 [-> [Hp _]]]]]]].
  simpl in Hd1, Hd2. injection Hd1 as <-. injection Hd2 as <-.
  rewrite Hp. reflexivity.
Defined.

(** C10. The closing character class of the pattern [_set_base_prompt]
    stores is [[>|\#]]: it matches ['|'] as well as ['>'] and ['#'],
    whatever the prompt. *)
Theorem set_base_prompt_class_bar {World : Type} (C : collaborator World)
  (s s' : session World) (bp : string) :
  set_base_prompt C s = (Ok bp, s') ->
  class_members (trailing_class (base_pattern s')) = [">"; "|"; "#"]%char /\
  In "|"%char (class_members (trailing_class (base_pattern s'))).
Proof.
  intro H. apply set_base_prompt_pattern in H. rewrite H.
  rewrite trailing_class_app by reflexivity.
  split; [reflexivity|simpl; auto].
Qed.

Lemma set_base_prompt_class_bar_witness :
  exists s', set_base_prompt demo_asa (init_session 0) = (Ok "ciscoasa", s') /\
    In "|"%char (class_members (trailing_class (base_pattern s'))).
Proof.
  eexists; split; [reflexivity|].
  exact (proj2 (set_base_prompt_class_bar demo_asa (init_session 0) _ "ciscoasa" eq_refl)).
Defined.

(** ** C6: the connect sequence *)

(** Case analysis on the answers of the base-class primitives. *)
Ltac case_primitives C :=
  repeat (simpl;
    match goal with
    | |- context [establish_connection C ?x] =>
        destruct (establish_connection C x) as [[?|?] ?]
    | |- context [find_prompt C ?x] =>
        destruct (find_prompt C x) as [[?|?] ?]
    | |- context [enable C ?x] =>
        destruct (enable C x) as [[?|?] ?]
    | |- context [disable_paging C ?x] =>
        destruct (disable_paging C x) as [[?|?] ?]
    | |- context [send_command_base C ?a ?b ?c ?x] =>
        destruct (send_command_base C a b c x) as [[?|?] ?]
    | |- context [parse_prompt ?r] =>
        destruct (parse_prompt r) as [[[? ?] ?]|?] eqn:?
    | |- context [py_contains "multiple" ?o] =>
        destruct (py_contains "multiple" o) eqn:?
    | u : unit |- _ => destruct u
    end).

Lemma connect_in_order {World : Type} (C : collaborator World) (s : session World) :
  connect C s = run_in_order (connect_steps C) s.
Proof.
  unfold connect, connect_steps, run_in_order, check_multiple_mode,
    set_base_prompt, send_command, bind, call, ret, raise, set_identity,
    set_multiple_mode.
  case_primitives C; reflexivity.
Qed.

Ltac connect_leaf :=
  split;
  [ first [ solve [exists 1; split; [lia|]; split;
                   [simpl; rewrite <- ?app_assoc; reflexivity
                   |intro; discriminate]]
          | solve [exists 2; split; [lia|]; split;
                   [simpl; rewrite <- ?app_assoc; reflexivity
                   |intro; discriminate]]
          | solve [exists 3; split; [lia|]; split;
                   [simpl; rewrite <- ?app_assoc; reflexivity
                   |intro; discriminate]]
          | solve [exists 4; split; [lia|]; split;
                   [simpl; rewrite <- ?app_assoc; reflexivity
                   |intro; discriminate]]
          | solve [exists 5; split; [lia|]; split;
                   [simpl; rewrite <- ?app_assoc; reflexivity
                   |intros _; reflexivity]] ]
  | intro; try discriminate;
    match goal with
    | Hp : parse_prompt ?raw = Ok _, Hm : py_contains "multiple" ?out = ?b |- _ =>
        exists raw, out; simpl; rewrite Hm;
        split; [exact Hp|rewrite ?orb_true_r, ?orb_false_r; reflexivity]
    end ].

(** C6. [connect] runs (a) [_establish_connection], (b) [_find_prompt] and
    the parsing of [_set_base_prompt], (c) [_enable], (d) [_disable_paging]
    and (e) [_check_multiple_mode], strictly in this order: it behaves as
    [run_in_order] on these steps, which stops at the first failing step
    with that step's error and runs no step twice.  The primitive calls
    made are a prefix of the five expected ones, all five when [connect]
    succeeds; on success the session holds a successful parse of a found
    prompt and the result of the mode check. *)
Theorem connect_spec {World : Type} (C : collaborator World) (s : session World) :
  connect C s = run_in_order (connect_steps C) s /\
  (exists k, 1 <= k <= 5 /\
     trace (snd (connect C s)) = (trace s ++ firstn k connect_events)%list /\
     (fst (connect C s) = Ok tt -> k = 5)) /\
  (fst (connect C s) = Ok tt ->
     exists raw out,
       parse_prompt raw = Ok (base_prompt (snd (connect C s)),
                              current_context (snd (connect C s)),
                              base_pattern (snd (connect C s))) /\
       multiple_mode (snd (connect C s)) = multiple_mode s || py_contains "multiple" out).
Proof.
  split; [apply connect_in_order|].
  unfold connect, check_multiple_mode, set_base_prompt, send_command, bind, call,
    ret, raise, set_identity, set_multiple_mode, log, with_world.
  case_primitives C; connect_leaf.
Qed.

Lemma connect_spec_witness :
  fst (connect demo_asa (init_session 0)) = Ok tt /\
  exists raw out,
    parse_prompt raw = Ok (base_prompt (snd (connect demo_asa (init_session 0))),
                           current_context (snd (connect demo_asa (init_session 0))),
                           base_pattern (snd (connect demo_asa (init_session 0)))) /\
    multiple_mode (snd (connect demo_asa (init_session 0)))
    = multiple_mode (init_session 0) || py_contains "multiple" out.
Proof.
  split; [reflexivity|].
  apply (proj2 (proj2 (connect_spec demo_asa (init_session 0)))). reflexivity.
Defined.

(** ** Further properties of the parser *)

Lemma py_split_nonempty (sep : ascii) (s : string) : py_split sep s <> [].
Proof.
  destruct s as [|c s]; simpl; [discriminate|].
  destruct (Ascii.eqb c sep); [discriminate|].
  destruct (py_split sep s); discriminate.
Qed.

(** Splitting then joining on the same separator gives the string back. *)
Lemma py_join_split (sep : ascii) (s : string) : py_join sep (py_split sep s) = s.
Proof.
  induction s as [|c s IH]; simpl; [reflexivity|].
  pose proof (py_split_nonempty sep s) as Hne.
  destruct (Ascii.eqb_spec c sep) as [->|Hc].
  - destruct (py_split sep s) as [|p ps]; [contradiction|].
    simpl in *. rewrite IH. reflexivity.
  - destruct (py_split sep s) as [|p ps]; [contradiction|].
    destruct ps as [|q qs]; simpl in *; rewrite IH; reflexivity.
Qed.

(** No part of a split holds the separator. *)
Lemma py_split_parts (sep : ascii) (s p : string) :
  In p (py_split sep s) -> mem_char sep p = false.
Proof.
  revert p; induction s as [|c s IH]; simpl; intros p Hp.
  - destruct Hp as [<-|[]]; reflexivity.
  - destruct (Ascii.eqb_spec c sep) as [->|Hc].
    + destruct Hp as [<-|Hp]; [reflexivity|exact (IH p Hp)].
    + destruct (py_split sep s) as [|q qs] eqn:E.
      * destruct Hp as [<-|[]]. simpl.
        destruct (Ascii.eqb_spec sep c); [congruence|reflexivity].
      * destruct Hp as [<-|Hp].
        -- simpl. destruct (Ascii.eqb_spec sep c); [congruence|].
           apply IH; left; reflexivity.
        -- apply IH; right; exact Hp.
Qed.

Lemma drop_last_cons (s : string) :
  s <> EmptyString -> exists c, s = drop_last s ++ String c EmptyString.
Proof.
  induction s as [|a r IH]; intro Hs; [contradiction|].
  destruct r as [|b r'].
  - exists a. reflexivity.
  - destruct IH as [c Hc]; [discriminate|].
    exists c. unfold drop_last in *. simpl in *.
    rewrite Nat.sub_0_r in *. simpl. f_equal. exact Hc.
Qed.

Lemma str_app_cancel_r (a b t : string) : a ++ t = b ++ t -> a = b.
Proof.
  revert b; induction a as [|x a IH]; intros b H.
  - destruct b as [|y b]; [reflexivity|].
    apply (f_equal length) in H. simpl in H. rewrite length_app in H. lia.
  - destruct b as [|y b].
    + apply (f_equal length) in H. simpl in H. rewrite length_app in H. lia.
    + simpl in H. injection H as -> H. f_equal. exact (IH b H).
Qed.

(** X1. A successful parse can be read backwards: the raw prompt is the
    empty string (base prompt [""], context ["system"]), or the base prompt
    followed by one stripped character (context ["system"]), or the base
    prompt, ['/'], the context and one stripped character. *)
Theorem parse_prompt_reconstruct (raw bp ctx pat : string) :
  parse_prompt raw = Ok (bp, ctx, pat) ->
  (raw = EmptyString /\ bp = EmptyString /\ ctx = "system") \/
  (ctx = "system" /\ exists c, raw = bp ++ String c EmptyString) \/
  (exists c, raw = bp ++ "/" ++ ctx ++ String c EmptyString).
Proof.
  unfold parse_prompt.
  destruct (py_contains "/" raw) eqn:Hsl.
  - destruct (py_split "/"%char (drop_last raw)) as [|p [|c [|x l]]] eqn:Hs;
      simpl; try discriminate.
    intro H; injection H as <- <- _.
    right; right.
    assert (Hne : raw <> EmptyString) by (intros ->; discriminate).
    destruct (drop_last_cons raw Hne) as [c0 Hc0].
    exists c0. rewrite Hc0 at 1.
    pose proof (py_join_split "/"%char (drop_last raw)) as Hj.
    rewrite Hs in Hj. simpl in Hj. rewrite <- Hj.
    rewrite str_app_assoc. reflexivity.
  - simpl. intro H; injection H as <- <- _.
    destruct raw as [|a r].
    + left. auto.
    + right; left. split; [reflexivity|].
      apply drop_last_cons. discriminate.
Qed.

Lemma parse_prompt_reconstruct_witness :
  parse_prompt "ciscoasa/admin#" = Ok ("ciscoasa", "admin", "ciscoasa.*(\/\w+)?(\(.*?\))?[>|\#]") /\
  ((("ciscoasa/admin#" = EmptyString /\ "ciscoasa" = EmptyString /\ "admin" = "system") \/
    ("admin" = "system" /\ exists c, "ciscoasa/admin#" = "ciscoasa" ++ String c EmptyString) \/
    (exists c, "ciscoasa/admin#" = "ciscoasa" ++ "/" ++ "admin" ++ String c EmptyString))).
Proof.
  split; [reflexivity|].
  apply (parse_prompt_reconstruct _ _ _ "ciscoasa.*(\/\w+)?(\(.*?\))?[>|\#]").
  reflexivity.
Defined.

(** X2. After a successful parse neither the base prompt nor the current
    context contains ['/']. *)
Theorem parse_prompt_fields_slash_free (raw bp ctx pat : string) :
  parse_prompt raw = Ok (bp, ctx, pat) ->
  py_contains "/" bp = false /\ py_contains "/" ctx = false.
Proof.
  intro H. rewrite !py_contains_char.
  unfold parse_prompt in H.
  destruct (py_contains "/" raw) eqn:Hsl.
  - destruct (py_split "/"%char (drop_last raw)) as [|p [|c [|x l]]] eqn:Hs;
      simpl in H; try discriminate.
    injection H as <- <- _.
    split; apply (py_split_parts "/"%char (drop_last raw)); rewrite Hs; simpl; auto.
  - simpl in H. injection H as <- <- _.
    split; [|reflexivity].
    rewrite py_contains_char in Hsl.
    destruct raw as [|a r]; [reflexivity|].
    destruct (drop_last_cons (String a r)) as [c Hc]; [discriminate|].
    rewrite Hc, mem_char_app in Hsl. apply orb_false_elim in Hsl. apply Hsl.
Qed.

Lemma parse_prompt_fields_slash_free_witness :
  parse_prompt "ciscoasa/admin#" = Ok ("ciscoasa", "admin", "ciscoasa.*(\/\w+)?(\(.*?\))?[>|\#]") /\
  py_contains "/" "ciscoasa" = false /\ py_contains "/" "admin" = false.
Proof.
  split; [reflexivity|].
  apply (parse_prompt_fields_slash_free "ciscoasa/admin#" _ _
           "ciscoasa.*(\/\w+)?(\(.*?\))?[>|\#]").
  reflexivity.
Defined.

(** X3. [re.escape] loses nothing: different strings escape differently. *)
Theorem re_escape_injective (a b : string) : re_escape a = re_escape b -> a = b.
Proof.
  revert b; induction a as [|c a IH]; intros b H; destruct b as [|d b].
  - reflexivity.
  - simpl in H. destruct (re_special d); discriminate.
  - simpl in H. destruct (re_special c); discriminate.
  - simpl in H.
    destruct (re_special c) eqn:Hc, (re_special d) eqn:Hd; injection H.
    + intros Hr ->. f_equal. exact (IH b Hr).
    + intros _ <-. discriminate.
    + intros _ ->. discriminate.
    + intros Hr ->. f_equal. exact (IH b Hr).
Qed.

Lemma re_escape_injective_witness :
  re_escape "a.b" = re_escape "a.b" /\ "a.b" = "a.b".
Proof. split; [reflexivity|]. apply re_escape_injective. reflexivity. Defined.

(** X4. Two successful parses give the same [base_pattern] exactly when
    their base prompts agree on their first twelve characters. *)
Theorem parse_prompt_pattern_prefix (raw1 raw2 bp1 bp2 ctx1 ctx2 pat1 pat2 : string) :
  parse_prompt raw1 = Ok (bp1, ctx1, pat1) ->
  parse_prompt raw2 = Ok (bp2, ctx2, pat2) ->
  (pat1 = pat2 <-> take_prefix 12 bp1 = take_prefix 12 bp2).
Proof.
  intros H1 H2.
  apply parse_prompt_pattern in H1. apply parse_prompt_pattern in H2.
  subst pat1 pat2. split.
  - intro H. apply re_escape_injective. exact (str_app_cancel_r _ _ _ H).
  - intros ->. reflexivity.
Qed.

Lemma parse_prompt_pattern_prefix_witness :
  (parse_prompt "firewall-datacenter-01#"
   = Ok ("firewall-datacenter-01", "system", "firewall\-dat.*(\/\w+)?(\(.*?\))?[>|\#]") /\
   parse_prompt "firewall-datacenter-02/admin>"
   = Ok ("firewall-datacenter-02", "admin", "firewall\-dat.*(\/\w+)?(\(.*?\))?[>|\#]")) /\
  take_prefix 12 "firewall-datacenter-01" = take_prefix 12 "firewall-datacenter-02".
Proof.
  split; [split; reflexivity|].
  apply (proj1 (parse_prompt_pattern_prefix "firewall-datacenter-01#"
    "firewall-datacenter-02/admin>" _ _ "system" "admin"
    "firewall\-dat.*(\/\w+)?(\(.*?\))?[>|\#]" "firewall\-dat.*(\/\w+)?(\(.*?\))?[>|\#]"
    eq_refl eq_refl)).
  reflexivity.
Defined.

(** ** Further properties of the methods *)

(** X5. [_set_base_prompt] never touches [multiple_mode]; when it fails
    (at [_find_prompt] or in the parsing) the stored base prompt, context
    and pattern are the old ones, and only [_find_prompt] was called. *)
Theorem set_base_prompt_frame {World : Type} (C : collaborator World) (s : session World) :
  multiple_mode (snd (set_base_prompt C s)) = multiple_mode s /\
  (forall e s', set_base_prompt C s = (Err e, s') ->
     base_prompt s' = base_prompt s /\ current_context s' = current_context s /\
     base_pattern s' = base_pattern s /\ trace s' = (trace s ++ [EvFindPrompt])%list).
Proof.
  rewrite set_base_prompt_eq.
  destruct (find_prompt C (log EvFindPrompt s)) as [[raw|e] w].
  - destruct (parse_prompt raw) as [[[bp ctx] pat]|e].
    + split; [reflexivity|]. intros e s' H; discriminate.
    + split; [reflexivity|]. intros e' s' H; injection H as _ <-. simpl. auto.
  - split; [reflexivity|]. intros e' s' H; injection H as _ <-. simpl. auto.
Qed.

Lemma set_base_prompt_frame_witness :
  set_base_prompt (demo_asa_prompt "a/b/c#") (init_session 0)
    = (Err ValueError, mk_session 1 "" "" "system" false [EvFindPrompt]) /\
  base_prompt (mk_session 1 "" "" "system" false [EvFindPrompt])
    = base_prompt (init_session 0).
Proof.
  split; [reflexivity|].
  exact (proj1 (proj2 (set_base_prompt_frame (demo_asa_prompt "a/b/c#") (init_session 0))
                  ValueError _ eq_refl)).
Defined.

(** X6. [_check_multiple_mode] sends [show mode] once and nothing else:
    it never refreshes the prompt, so base prompt, context and pattern
    stay as they were, whatever the device answers. *)
Theorem check_multiple_mode_frame {World : Type} (C : collaborator World)
  (s : session World) :
  let s' := snd (check_multiple_mode C s) in
  base_prompt s' = base_prompt s /\ current_context s' = current_context s /\
  base_pattern s' = base_pattern s /\
  trace s' = (trace s ++ [EvSendCommandBase "show mode" true true])%list.
Proof.
  cbv zeta. unfold check_multiple_mode, bind.
  rewrite send_command_eq; cbv zeta. simpl.
  destruct (send_command_base C "show mode" true true _) as [[out|e] w]; simpl;
    [destruct (py_contains "multiple" out)|]; simpl; auto.
Qed.

(** X7. [_check_multiple_mode] only ever sets [multiple_mode] to [True]:
    a session already in multiple mode stays in it, whatever the answer to
    [show mode] and even when the command fails. *)
Theorem check_multiple_mode_never_clears {World : Type} (C : collaborator World)
  (s : session World) :
  multiple_mode s = true -> multiple_mode (snd (check_multiple_mode C s)) = true.
Proof.
  intro Hm. unfold check_multiple_mode, bind.
  rewrite send_command_eq; cbv zeta. simpl.
  destruct (send_command_base C "show mode" true true _) as [[out|e] w]; simpl;
    [destruct (py_contains "multiple" out)|]; simpl; auto.
Qed.

Lemma check_multiple_mode_never_clears_witness :
  multiple_mode (mk_session 0 "ciscoasa" "" "system" true []) = true /\
  multiple_mode (snd (check_multiple_mode (demo_asa_answer "Security context mode: single")
                        (mk_session 0 "ciscoasa" "" "system" true []))) = true.
Proof.
  split; [reflexivity|].
  apply check_multiple_mode_never_clears. reflexivity.
Defined.

(** X8. When the base [send_command] of [show mode] fails,
    [_check_multiple_mode] fails with the same error and leaves
    [multiple_mode] as it was. *)
Theorem check_multiple_mode_error {World : Type} (C : collaborator World)
  (s : session World) (e : error) (w : World) :
  send_command_base C "show mode" true true
    (log (EvSendCommandBase "show mode" true true) s) = (Err e, w) ->
  fst (check_multiple_mode C s) = Err e /\
  multiple_mode (snd (check_multiple_mode C s)) = multiple_mode s.
Proof.
  intro Hb. unfold check_multiple_mode, bind.
  rewrite send_command_eq; cbv zeta. rewrite Hb. split; reflexivity.
Qed.

Lemma check_multiple_mode_error_witness :
  send_command_base (demo_asa_down "timeout") "show mode" true true
    (log (EvSendCommandBase "show mode" true true) (init_session 0))
    = (Err (TransportError "timeout"), 1) /\
  fst (check_multiple_mode (demo_asa_down "timeout") (init_session 0))
    = Err (TransportError "timeout").
Proof.
  split; [reflexivity|].
  apply (check_multiple_mode_error (demo_asa_down "timeout") (init_session 0)
           (TransportError "timeout") 1).
  reflexivity.
Defined.

(** X9. When the base [send_command] fails, the overlay fails with the
    same error and does not refresh the prompt, even for a command
    containing ["changet"]: base prompt, context and pattern are unchanged. *)
Theorem send_command_base_error {World : Type} (C : collaborator World)
  (cmd : string) (sp sc : bool) (s : session World) (e : error) (w : World) :
  send_command_base C cmd sp sc (log (EvSendCommandBase cmd sp sc) s) = (Err e, w) ->
  let s' := snd (send_command C cmd sp sc s) in
  fst (send_command C cmd sp sc s) = Err e /\
  trace s' = (trace s ++ [EvSendCommandBase cmd sp sc])%list /\
  base_prompt s' = base_prompt s /\ current_context s' = current_context s /\
  base_pattern s' = base_pattern s.
Proof.
  intro Hb. cbv zeta. rewrite send_command_eq; cbv zeta. rewrite Hb. simpl. auto.
Qed.

Lemma send_command_base_error_witness :
  send_command_base (demo_asa_down "closed") "changeto context admin" true true
    (log (EvSendCommandBase "changeto context admin" true true) (init_session 0))
    = (Err (TransportError "closed"), 1) /\
  trace (snd (send_command (demo_asa_down "closed") "changeto context admin" true true
                (init_session 0)))
    = [EvSendCommandBase "changeto context admin" true true].
Proof.
  split; [reflexivity|].
  exact (proj1 (proj2 (send_command_base_error (demo_asa_down "closed")
                         "changeto context admin" true true
                         (init_session 0) (TransportError "closed") 1 eq_refl))).
Defined.

(** X10. When a command containing ["changet"] went through but the
    prompt refresh fails, [send_command] raises the refresh's error (the
    command's output is lost) and the session keeps the base prompt,
    context and pattern it had before the command. *)
Theorem send_command_refresh_error {World : Type} (C : collaborator World)
  (cmd : string) (sp sc : bool) (s : session World) (o : string) (w : World) (e : error) :
  py_contains "changet" cmd = true ->
  send_command_base C cmd sp sc (log (EvSendCommandBase cmd sp sc) s) = (Ok o, w) ->
  fst (set_base_prompt C (with_world w (log (EvSendCommandBase cmd sp sc) s))) = Err e ->
  let s' := snd (send_command C cmd sp sc s) in
  fst (send_command C cmd sp sc s) = Err e /\
  base_prompt s' = base_prompt s /\ current_context s' = current_context s /\
  base_pattern s' = base_pattern s.
Proof.
  intros Hm Hb Hr. cbv zeta. rewrite send_command_eq; cbv zeta. rewrite Hb, Hm.
  revert Hr. rewrite !set_base_prompt_eq.
  destruct (find_prompt C _) as [[raw|e'] w'].
  - destruct (parse_prompt raw) as [[[bp ctx] pat]|e'];
      simpl; intro H; [discriminate|injection H as ->; auto].
  - simpl; intro H; injection H as ->; auto.
Qed.

Lemma send_command_refresh_error_witness :
  let C := demo_asa_prompt "a/b/c#" in
  let cmd := "changeto context admin" in
  let s0 := mk_session 0 "ciscoasa" "old" "system" false [] in
  (py_contains "changet" cmd = true /\
   send_command_base C cmd true true (log (EvSendCommandBase cmd true true) s0) = (Ok "", 1) /\
   fst (set_base_prompt C (with_world 1 (log (EvSendCommandBase cmd true true) s0)))
     = Err ValueError) /\
  base_prompt (snd (send_command C cmd true true s0)) = "ciscoasa".
Proof.
  cbv zeta. split; [split; [reflexivity|split; reflexivity]|].
  exact (proj1 (proj2 (send_command_refresh_error (demo_asa_prompt "a/b/c#")
    "changeto context admin" true true (mk_session 0 "ciscoasa" "old" "system" false [])
    "" 1 ValueError eq_refl eq_refl eq_refl))).
Defined.

(** X11. [connect] never takes a session out of multiple mode: run again
    on a session whose [multiple_mode] is [True], it leaves it [True],
    whatever the device answers and wherever the sequence stops. *)
Theorem connect_never_clears_multiple_mode {World : Type} (C : collaborator World)
  (s : session World) :
  multiple_mode s = true -> multiple_mode (snd (connect C s)) = true.
Proof.
  intro Hm.
  unfold connect, check_multiple_mode, set_base_prompt, send_command, bind, call,
    ret, raise, set_identity, set_multiple_mode, log, with_world.
  case_primitives C; first [exact Hm | reflexivity].
Qed.

Lemma connect_never_clears_multiple_mode_witness :
  multiple_mode (mk_session 0 "" "" "system" true []) = true /\
  multiple_mode (snd (connect (demo_asa_answer "Security context mode: single")
                        (mk_session 0 "" "" "system" true []))) = true.
Proof.
  split; [reflexivity|].
  apply connect_never_clears_multiple_mode. reflexivity.
Defined.

(** X12. No entry of [command_mapper] is shadowed: every key of the
    mapper is looked up to its own value. *)
Theorem get_default_command_entries (k v : string) :
  In (k, v) command_mapper -> get_default_command k = Ok v.
Proof.
  simpl. intros H.
  repeat (destruct H as [H|H]; [injection H as <- <-; reflexivity|]).
  contradiction.
Qed.

Lemma get_default_command_entries_witness :
  In ("disable_paging", "terminal pager 0") command_mapper /\
  get_default_command "disable_paging" = Ok "terminal pager 0".
Proof.
  assert (H : In ("disable_paging", "terminal pager 0") command_mapper)
    by (simpl; tauto).
  split; [exact H|]. exact (get_default_command_entries _ _ H).
Defined.
